(** * med-ch-demo: medical-record chaincode and its access control

    A shallow embedding of [chaincode/access.go] and of the chaincode's main
    file (handlers, record helpers, counter helpers, caller utilities), with
    the properties of the specification stated over it.

    Conventions of the embedding:
    - a Go [string] and a Go [[]byte] are both a [string] here (a sequence of
      bytes); a [nil] slice returned by the ledger is [None];
    - a [uint64] is an [N] kept below [2^64], additions wrap around;
    - a Go [error] is an [option string]: [None] is [nil], [Some m] carries
      the message of [err.Error()];
    - a function that touches the ledger takes the stub and returns the stub
      it leaves behind; a run-time panic is an outcome of its own;
    - [x, _ := f()] is [fst (f ...)]: the error is dropped as in the source. *)

From Stdlib Require Import NArith ZArith Lia Ascii String List DecimalString DecimalN.
From stdpp Require Import base option strings list gmap fin_maps.

Local Open Scope string_scope.
Local Open Scope N_scope.

(** ** Run-time outcomes *)

(** A Go call either returns or panics. *)
Inductive Go (A : Type) : Type :=
| Return (a : A)
| Panic (msg : string).
Arguments Return {A} a.
Arguments Panic {A} msg.

#[global] Instance Go_ret : MRet Go := fun _ a => Return a.
#[global] Instance Go_bind : MBind Go := fun _ _ f m =>
  match m with
  | Return a => f a
  | Panic msg => Panic msg
  end.

(** Go's [error]. *)
Definition error := option string.

(** ** Unsigned 64-bit integers and their byte encodings *)

Definition uint64_modulus : N := 2 ^ 64.

(** [count + 1] on a [uint64]. *)
Definition uint64_add (a b : N) : N := (a + b) mod uint64_modulus.

Fixpoint put_le (width : nat) (v : N) : string :=
  match width with
  | O => EmptyString
  | S w => String (ascii_of_N (v mod 256)) (put_le w (v / 256))
  end.

Fixpoint get_le (width : nat) (b : string) : N :=
  match width, b with
  | S w, String c rest => N_of_ascii c + 256 * get_le w rest
  | _, _ => 0
  end.

(** [binary.LittleEndian.PutUint64] on a fresh 8-byte slice. *)
Definition PutUint64 (v : N) : string := put_le 8 v.

(** [binary.LittleEndian.Uint64]: reads the first eight bytes, and panics on
    a shorter slice. *)
Definition Uint64 (b : string) : Go N :=
  if (String.length b <? 8)%nat then Panic "index out of range"
  else Return (get_le 8 b).

(** ** Integer to string conversions *)

(** [utf8.EncodeRune]: the UTF-8 bytes of a code point; surrogates and values
    above U+10FFFF are encoded as U+FFFD. *)
Definition RuneError : N := 65533.

Definition utf8_bytes (r : N) : list N :=
  if r <? 128 then [r]
  else if r <? 2048 then
    [N.lor 192 (N.shiftr r 6); N.lor 128 (N.land r 63)]
  else if r <? 65536 then
    [N.lor 224 (N.shiftr r 12);
     N.lor 128 (N.land (N.shiftr r 6) 63);
     N.lor 128 (N.land r 63)]
  else
    [N.lor 240 (N.shiftr r 18);
     N.lor 128 (N.land (N.shiftr r 12) 63);
     N.lor 128 (N.land (N.shiftr r 6) 63);
     N.lor 128 (N.land r 63)].

Definition valid_rune (r : N) : bool :=
  (r <? 1114112) && negb ((55296 <=? r) && (r <=? 57343)).

Definition EncodeRune (r : N) : list N :=
  if valid_rune r then utf8_bytes r else utf8_bytes RuneError.

Definition string_of_bytes (l : list N) : string :=
  string_of_list_ascii (map ascii_of_N l).

(** The conversion [string(id)] of a [uint64]: Go yields the UTF-8
    representation of the code point [id], not its digits. *)
Definition string_of_uint64 (id : N) : string := string_of_bytes (EncodeRune id).

(** [fmt.Sprint(id)] of a [uint64]: the decimal digits. *)
Definition Sprint (id : N) : string := NilEmpty.string_of_uint (N.to_uint id).

(** ** The ledger *)

(** Keys of the world state: a plain name, or the composite key of an object
    type and its attributes. The runtime's encoding of a composite key
    separates the parts by U+0000, which no accepted part holds, so two
    composite keys are equal exactly when their parts are. *)
Inductive Key : Type :=
| SimpleKey (name : string)
| CompositeKey (objectType : string) (attributes : list string).

#[global] Instance Key_eq_dec : EqDecision Key.
Proof. solve_decision. Defined.

#[global] Instance Key_countable : Countable Key.
Proof.
  refine (inj_countable'
    (fun k => match k with
              | SimpleKey n => inl n
              | CompositeKey o a => inr (o, a)
              end)
    (fun s => match s with
              | inl n => SimpleKey n
              | inr (o, a) => CompositeKey o a
              end) _).
  intros []; reflexivity.
Defined.

Definition in_range (lo hi b : N) : bool := (lo <=? b) && (b <=? hi).

(** The bytes of a string the key constructor accepts: well-formed UTF-8
    in which neither U+0000 nor U+10FFFF occurs. *)
Fixpoint attribute_bytes_ok (l : list N) : bool :=
  match l with
  | [] => true
  | b0 :: rest =>
      if b0 <? 128 then negb (b0 =? 0) && attribute_bytes_ok rest
      else
        match rest with
        | [] => false
        | b1 :: rest1 =>
            if in_range 194 223 b0 then in_range 128 191 b1 && attribute_bytes_ok rest1
            else
              match rest1 with
              | [] => false
              | b2 :: rest2 =>
                  if in_range 224 239 b0 then
                    (if b0 =? 224 then in_range 160 191 b1
                     else if b0 =? 237 then in_range 128 159 b1
                     else in_range 128 191 b1)
                    && in_range 128 191 b2 && attribute_bytes_ok rest2
                  else
                    match rest2 with
                    | [] => false
                    | b3 :: rest3 =>
                        in_range 240 244 b0
                        && (if b0 =? 240 then in_range 144 191 b1
                            else if b0 =? 244 then in_range 128 143 b1
                            else in_range 128 191 b1)
                        && in_range 128 191 b2 && in_range 128 191 b3
                        && negb ((b0 =? 244) && (b1 =? 143) && (b2 =? 191) && (b3 =? 191))
                        && attribute_bytes_ok rest3
                    end
              end
        end
  end.

Definition bytes_of_string (s : string) : list N :=
  map N_of_ascii (list_ascii_of_string s).

(** The runtime's check of an object type or attribute ([true]: accepted). *)
Definition validateCompositeKeyAttribute (str : string) : bool :=
  attribute_bytes_ok (bytes_of_string str).

(** [stub.CreateCompositeKey]: the composite key, or the empty key and an
    error when the object type or an attribute is refused. *)
Definition CreateCompositeKey (objectType : string) (attributes : list string)
  : Key * error :=
  if validateCompositeKeyAttribute objectType
     && forallb validateCompositeKeyAttribute attributes
  then (CompositeKey objectType attributes, None)
  else (SimpleKey "", Some "invalid composite key attribute").

(** The identity the runtime hands over with [GetCreator], together with the
    outcome of decoding it: the protobuf envelope, the PEM block and the
    X.509 certificate are decoded by libraries outside the chaincode. *)
Inductive Identity : Type :=
| BadEnvelope
| BadPEM (idBytes : string)
| BadCertificate (idBytes : string) (reason : string)
| Certificate (idBytes : string) (commonName : string).

(** The chaincode stub: the world state, the creator of the transaction, and
    the failures the ledger reports on reads and writes of a key. *)
Record Stub : Type := mkStub {
  State : gmap Key string;
  Creator : Identity;
  GetFault : Key -> error;
  PutFault : Key -> error
}.

Definition GetState (stub : Stub) (key : Key) : option string * error :=
  match GetFault stub key with
  | Some e => (None, Some e)
  | None => (State stub !! key, None)
  end.

(** [stub.PutState]: the ledger keeps no zero-length value, a write of one
    removes the key. *)
Definition PutState (stub : Stub) (key : Key) (value : string) : Stub * error :=
  match PutFault stub key with
  | Some e => (stub, Some e)
  | None =>
      ({| State := match value with
                   | EmptyString => delete key (State stub)
                   | String _ _ => <[key := value]> (State stub)
                   end;
          Creator := Creator stub;
          GetFault := GetFault stub;
          PutFault := PutFault stub |}, None)
  end.

(** ** JSON

    [encoding/json] is the Go standard library. The chaincode uses it on flat
    structs with [string] and [uint64] fields and on [MedicalRecords]; the
    model below parses JSON text into a syntax tree, fills a struct from an
    object the way the library's decoder does (members in document order,
    names matched exactly or without regard to case, unknown members and
    [null] skipped, the first type mismatch reported after the rest is
    decoded), and prints structs field by field in declaration order. A
    syntax error is reported as the end of the input or as an invalid
    character, without the character and the offset the library adds. *)

#[warnings="-register-all"]
Inductive JSON : Type :=
| JNull
| JBool (b : bool)
| JNumber (literal : string)
| JString (s : string)
| JArray (elements : list JSON)
| JObject (members : list (string * JSON)).

Definition is_space (c : ascii) : bool :=
  match N_of_ascii c with
  | 32 | 9 | 10 | 13 => true
  | _ => false
  end.

Fixpoint skip_space (s : string) : string :=
  match s with
  | String c rest => if is_space c then skip_space rest else s
  | EmptyString => s
  end.

Definition is_digit (c : ascii) : bool :=
  (48 <=? N_of_ascii c) && (N_of_ascii c <=? 57).

Fixpoint span_digits (s : string) : string * string :=
  match s with
  | String c rest =>
      if is_digit c then
        let '(d, r) := span_digits rest in (String c d, r)
      else (EmptyString, s)
  | EmptyString => (EmptyString, s)
  end.

(** The integer part of a number: a single [0], or a non-zero digit and more
    digits. *)
Definition scan_int (s : string) : option (string * string) :=
  match s with
  | String c rest =>
      if negb (is_digit c) then None
      else if (N_of_ascii c =? 48) then Some (String c EmptyString, rest)
      else let '(d, r) := span_digits rest in Some (String c d, r)
  | EmptyString => None
  end.

Definition scan_frac (s : string) : option (string * string) :=
  match s with
  | String "."%char rest =>
      match span_digits rest with
      | (EmptyString, _) => None
      | (d, r) => Some (String "."%char d, r)
      end
  | _ => Some (EmptyString, s)
  end.

Definition scan_exp (s : string) : option (string * string) :=
  let digits (pre : string) (rest : string) :=
    match span_digits rest with
    | (EmptyString, _) => None
    | (d, r) => Some (pre +:+ d, r)
    end in
  match s with
  | String c rest =>
      if (N_of_ascii c =? 101) || (N_of_ascii c =? 69) then
        match rest with
        | String sg rest' =>
            if (N_of_ascii sg =? 43) || (N_of_ascii sg =? 45)
            then digits (String c (String sg EmptyString)) rest'
            else digits (String c EmptyString) rest
        | EmptyString => None
        end
      else Some (EmptyString, s)
  | EmptyString => Some (EmptyString, s)
  end.

Definition scan_number (s : string) : option (string * string) :=
  let '(sign, s1) :=
    match s with
    | String "-"%char rest => ("-", rest)
    | _ => (EmptyString, s)
    end in
  '(i, s2) ← scan_int s1;
  '(f, s3) ← scan_frac s2;
  '(e, s4) ← scan_exp s3;
  Some (sign +:+ i +:+ f +:+ e, s4).

Definition hex_digit (c : ascii) : option N :=
  let n := N_of_ascii c in
  if (48 <=? n) && (n <=? 57) then Some (n - 48)
  else if (97 <=? n) && (n <=? 102) then Some (n - 87)
  else if (65 <=? n) && (n <=? 70) then Some (n - 55)
  else None.

Definition getu4 (a b c d : ascii) : option N :=
  x ← hex_digit a; y ← hex_digit b; z ← hex_digit c; w ← hex_digit d;
  Some (4096 * x + 256 * y + 16 * z + w).

Definition is_high_surrogate (r : N) : bool := (55296 <=? r) && (r <=? 56319).
Definition is_low_surrogate (r : N) : bool := (56320 <=? r) && (r <=? 57343).

(** The double quote, as a character and as a one-character string. *)
Definition double_quote : ascii := ascii_of_N 34.
Definition DQ : string := String double_quote EmptyString.

(** The body of a string literal, after the opening quote. *)
Fixpoint scan_string (s : string) : option (string * string) :=
  let put (bytes : string) (k : option (string * string)) :=
    '(body, r) ← k; Some (bytes +:+ body, r) in
  match s with
  | EmptyString => None
  | String c rest =>
      match N_of_ascii c with
      | 34 => Some (EmptyString, rest)
      | 92 =>
          match rest with
          | EmptyString => None
          | String e rest =>
              match N_of_ascii e with
              | 34 => put DQ (scan_string rest)
              | 92 => put "\" (scan_string rest)
              | 47 => put "/" (scan_string rest)
              | 98 => put (String (ascii_of_N 8) EmptyString) (scan_string rest)
              | 102 => put (String (ascii_of_N 12) EmptyString) (scan_string rest)
              | 110 => put (String (ascii_of_N 10) EmptyString) (scan_string rest)
              | 114 => put (String (ascii_of_N 13) EmptyString) (scan_string rest)
              | 116 => put (String (ascii_of_N 9) EmptyString) (scan_string rest)
              | 117 =>
                  match rest with
                  | String a (String b (String c (String d rest1))) =>
                      match getu4 a b c d with
                      | None => None
                      | Some hi =>
                          let single :=
                            put (string_of_bytes (EncodeRune hi)) (scan_string rest1) in
                          if is_high_surrogate hi then
                            match rest1 with
                            | String "\"%char (String "u"%char
                                (String a' (String b' (String c' (String d' rest2))))) =>
                                match getu4 a' b' c' d' with
                                | Some lo =>
                                    if is_low_surrogate lo then
                                      put (string_of_bytes (EncodeRune
                                             (65536 + 1024 * (hi - 55296) + (lo - 56320))))
                                          (scan_string rest2)
                                    else single
                                | None => single
                                end
                            | _ => single
                            end
                          else single
                      end
                  | _ => None
                  end
              | _ => None
              end
          end
      | n => if n <? 32 then None else put (String c EmptyString) (scan_string rest)
      end
  end.

Definition expect (word : string) (s : string) : option string :=
  if String.prefix word s
  then Some (String.substring (String.length word) (String.length s - String.length word) s)
  else None.

Fixpoint parse_value (fuel : nat) (s : string) : option (JSON * string) :=
  match fuel with
  | O => None
  | S fuel =>
      match skip_space s with
      | EmptyString => None
      | String c rest as s' =>
          match N_of_ascii c with
          | 123 =>
              match skip_space rest with
              | String "}"%char r => Some (JObject [], r)
              | r => parse_members fuel r []
              end
          | 91 =>
              match skip_space rest with
              | String "]"%char r => Some (JArray [], r)
              | r => parse_elements fuel r []
              end
          | 34 => '(str, r) ← scan_string rest; Some (JString str, r)
          | 116 => r ← expect "true" s'; Some (JBool true, r)
          | 102 => r ← expect "false" s'; Some (JBool false, r)
          | 110 => r ← expect "null" s'; Some (JNull, r)
          | _ => '(lit, r) ← scan_number s'; Some (JNumber lit, r)
          end
      end
  end
with parse_members (fuel : nat) (s : string) (acc : list (string * JSON))
  : option (JSON * string) :=
  match fuel with
  | O => None
  | S fuel =>
      match skip_space s with
      | String c rest =>
          if negb (N_of_ascii c =? 34) then None else
          '(name, r1) ← scan_string rest;
          match skip_space r1 with
          | String ":"%char r2 =>
              '(v, r3) ← parse_value fuel r2;
              match skip_space r3 with
              | String ","%char r4 => parse_members fuel r4 (acc ++ [(name, v)])
              | String "}"%char r4 => Some (JObject (acc ++ [(name, v)]), r4)
              | _ => None
              end
          | _ => None
          end
      | EmptyString => None
      end
  end
with parse_elements (fuel : nat) (s : string) (acc : list JSON)
  : option (JSON * string) :=
  match fuel with
  | O => None
  | S fuel =>
      '(v, r1) ← parse_value fuel s;
      match skip_space r1 with
      | String ","%char r2 => parse_elements fuel r2 (acc ++ [v])
      | String "]"%char r2 => Some (JArray (acc ++ [v]), r2)
      | _ => None
      end
  end.

(** A whole document: one value, with white space around it. *)
Definition parse_json (data : string) : option JSON :=
  '(v, rest) ← parse_value (S (String.length data)) data;
  match skip_space rest with
  | EmptyString => Some v
  | _ => None
  end.

Definition hex_char (n : N) : ascii :=
  if n <? 10 then ascii_of_N (48 + n) else ascii_of_N (87 + n).

(** The encoder's escaping of one byte of a string: quote and backslash get
    a backslash, newline, carriage return and tab their letter, the other
    control characters and [<], [>], [&] a [\u00XX]; every other byte is
    copied (the library also rewrites U+2028, U+2029 and invalid UTF-8). *)
Definition escape_byte (c : ascii) : string :=
  let n := N_of_ascii c in
  if n =? 34 then "\" +:+ DQ
  else if n =? 92 then "\\"
  else if n =? 10 then "\n"
  else if n =? 13 then "\r"
  else if n =? 9 then "\t"
  else if (n <? 32) || (n =? 60) || (n =? 62) || (n =? 38) then
    "\u00" +:+ String (hex_char (n / 16)) (String (hex_char (n mod 16)) EmptyString)
  else String c EmptyString.

Fixpoint escape (s : string) : string :=
  match s with
  | EmptyString => EmptyString
  | String c rest => escape_byte c +:+ escape rest
  end.

Definition quote (s : string) : string := DQ +:+ escape s +:+ DQ.

Fixpoint print_json (j : JSON) : string :=
  match j with
  | JNull => "null"
  | JBool true => "true"
  | JBool false => "false"
  | JNumber lit => lit
  | JString s => quote s
  | JArray l =>
      "[" +:+
      (fix elements (l : list JSON) : string :=
         match l with
         | [] => EmptyString
         | [x] => print_json x
         | x :: rest => print_json x +:+ "," +:+ elements rest
         end) l +:+ "]"
  | JObject ms =>
      "{" +:+
      (fix members (ms : list (string * JSON)) : string :=
         match ms with
         | [] => EmptyString
         | [(k, x)] => quote k +:+ ":" +:+ print_json x
         | (k, x) :: rest => quote k +:+ ":" +:+ print_json x +:+ "," +:+ members rest
         end) ms +:+ "}"
  end.

(** [strconv.ParseUint(lit, 10, 64)] on a JSON number literal. *)
Definition ParseUint (lit : string) : option N :=
  match NilEmpty.uint_of_string lit with
  | Some d => let n := N.of_uint d in if n <? uint64_modulus then Some n else None
  | None => None
  end.

(** A field of a struct as the decoder and the encoder see it: its JSON name
    (the struct tag), and how to read and to write it. *)
Inductive Field (X : Type) : Type :=
| StringField (name : string) (get : X -> string) (set : string -> X -> X)
| Uint64Field (name : string) (get : X -> N) (set : N -> X -> X).
Arguments StringField {X} name get set.
Arguments Uint64Field {X} name get set.

Definition field_name {X} (f : Field X) : string :=
  match f with
  | StringField n _ _ => n
  | Uint64Field n _ _ => n
  end.

(** A struct type that travels as JSON: its Go name, its zero value and its
    fields in declaration order. *)
Class GoStruct (X : Type) : Type := {
  type_name : string;
  zero : X;
  fields : list (Field X)
}.

Definition lower (c : ascii) : ascii :=
  let n := N_of_ascii c in
  if (65 <=? n) && (n <=? 90) then ascii_of_N (n + 32) else c.

Fixpoint fold_case (s : string) : string :=
  match s with
  | EmptyString => EmptyString
  | String c rest => String (lower c) (fold_case rest)
  end.

(** The field a member name selects: an exact match, or else the first field
    whose name matches without regard to case. *)
Definition find_field {X} (fs : list (Field X)) (name : string) : option (Field X) :=
  match List.find (fun f => String.eqb (field_name f) name) fs with
  | Some f => Some f
  | None => List.find (fun f => String.eqb (fold_case (field_name f)) (fold_case name)) fs
  end.

Definition json_kind (v : JSON) : string :=
  match v with
  | JNull => "null"
  | JBool _ => "bool"
  | JNumber _ => "number"
  | JString _ => "string"
  | JArray _ => "array"
  | JObject _ => "object"
  end.

Definition type_error (value struct name type : string) : string :=
  "json: cannot unmarshal " +:+ value +:+ " into Go struct field " +:+
  struct +:+ "." +:+ name +:+ " of type " +:+ type.

(** Decoding one member into the struct; the first error is kept. *)
Definition decode_member {X} `{GoStruct X} (acc : X * error) (m : string * JSON)
  : X * error :=
  let '(x, err) := acc in
  let '(name, v) := m in
  let fail (value type : string) : X * error :=
    (x, match err with
        | Some e => Some e
        | None => Some (type_error value type_name name type)
        end) in
  match find_field fields name with
  | None => (x, err)
  | Some f =>
      match v, f with
      | JNull, _ => (x, err)
      | JString s, StringField _ _ set => (set s x, err)
      | _, StringField _ _ _ => fail (json_kind v) "string"
      | JNumber lit, Uint64Field _ _ set =>
          match ParseUint lit with
          | Some n => (set n x, err)
          | None => fail ("number " +:+ lit) "uint64"
          end
      | _, Uint64Field _ _ _ => fail (json_kind v) "uint64"
      end
  end.

(** [json.Unmarshal(data, &x)] for a struct [x]. *)
Definition json_Unmarshal {X} `{GoStruct X} (data : string) (x : X) : X * error :=
  match parse_json data with
  | None =>
      (x, Some (match skip_space data with
                | EmptyString => "unexpected end of JSON input"
                | _ => "invalid character in JSON input"
                end))
  | Some JNull => (x, None)
  | Some (JObject ms) => fold_left decode_member ms (x, None)
  | Some v =>
      (x, Some ("json: cannot unmarshal " +:+ json_kind v +:+
                " into Go value of type main." +:+ type_name))
  end.

(** [json.Unmarshal(data, x)] for a struct [x] handed over as a value: the
    decoder checks the syntax of the text and then refuses a destination
    that is not a pointer, so it reports an error on every text and fills
    nothing. *)
Definition json_Unmarshal_by_value {X} `{GoStruct X} (data : string) (x : X) : error :=
  match parse_json data with
  | None =>
      Some (match skip_space data with
            | EmptyString => "unexpected end of JSON input"
            | _ => "invalid character in JSON input"
            end)
  | Some _ => Some ("json: Unmarshal(non-pointer main." +:+ type_name +:+ ")")
  end.

Definition struct_to_json {X} `{GoStruct X} (x : X) : JSON :=
  JObject (map (fun f => match f with
                         | StringField n get _ => (n, JString (get x))
                         | Uint64Field n get _ => (n, JNumber (Sprint (get x)))
                         end) fields).

(** [json.Marshal(x)] for a struct [x]. *)
Definition json_Marshal {X} `{GoStruct X} (x : X) : string :=
  print_json (struct_to_json x).

(** ** Records of the chaincode

    Each struct lives in a module of its name, with its fields and their
    JSON tags in declaration order. *)

Module PatientInfo.
Record t : Type := mk {
  PatientID : N;
  FirstName : string;
  LastName : string;
  Gender : N;
  BirthDate : N;
  Phone : string
}.
Definition tags : list (Field t) :=
  [ Uint64Field "ID" PatientID
      (fun v x => mk v (FirstName x) (LastName x) (Gender x) (BirthDate x) (Phone x));
    StringField "firstname" FirstName
      (fun v x => mk (PatientID x) v (LastName x) (Gender x) (BirthDate x) (Phone x));
    StringField "lastname" LastName
      (fun v x => mk (PatientID x) (FirstName x) v (Gender x) (BirthDate x) (Phone x));
    Uint64Field "gender" Gender
      (fun v x => mk (PatientID x) (FirstName x) (LastName x) v (BirthDate x) (Phone x));
    Uint64Field "birthdate" BirthDate
      (fun v x => mk (PatientID x) (FirstName x) (LastName x) (Gender x) v (Phone x));
    StringField "phone" Phone
      (fun v x => mk (PatientID x) (FirstName x) (LastName x) (Gender x) (BirthDate x) v) ].
End PatientInfo.

Module MedicalVisit.
Record t : Type := mk {
  VisitID : N;
  PatientID : N;
  Doctor : string;
  Complaint : string;
  Diagnosis : string;
  Perscription : string
}.
Definition tags : list (Field t) :=
  [ Uint64Field "ID" VisitID
      (fun v x => mk v (PatientID x) (Doctor x) (Complaint x) (Diagnosis x) (Perscription x));
    Uint64Field "patient" PatientID
      (fun v x => mk (VisitID x) v (Doctor x) (Complaint x) (Diagnosis x) (Perscription x));
    StringField "doctor" Doctor
      (fun v x => mk (VisitID x) (PatientID x) v (Complaint x) (Diagnosis x) (Perscription x));
    StringField "complaint" Complaint
      (fun v x => mk (VisitID x) (PatientID x) (Doctor x) v (Diagnosis x) (Perscription x));
    StringField "diagnosis" Diagnosis
      (fun v x => mk (VisitID x) (PatientID x) (Doctor x) (Complaint x) v (Perscription x));
    StringField "perscription" Perscription
      (fun v x => mk (VisitID x) (PatientID x) (Doctor x) (Complaint x) (Diagnosis x) v) ].
End MedicalVisit.

Module PatientInfoParams.
Record t : Type := mk {
  FirstName : string;
  LastName : string;
  Gender : N;
  BirthDate : N;
  Phone : string
}.
Definition tags : list (Field t) :=
  [ StringField "firstname" FirstName
      (fun v x => mk v (LastName x) (Gender x) (BirthDate x) (Phone x));
    StringField "lastname" LastName
      (fun v x => mk (FirstName x) v (Gender x) (BirthDate x) (Phone x));
    Uint64Field "gender" Gender
      (fun v x => mk (FirstName x) (LastName x) v (BirthDate x) (Phone x));
    Uint64Field "birthdate" BirthDate
      (fun v x => mk (FirstName x) (LastName x) (Gender x) v (Phone x));
    StringField "phone" Phone
      (fun v x => mk (FirstName x) (LastName x) (Gender x) (BirthDate x) v) ].
End PatientInfoParams.

Module PatientIDParams.
Record t : Type := mk { PatientID : N; Doctor : string }.
Definition tags : list (Field t) :=
  [ Uint64Field "ID" PatientID (fun v x => mk v (Doctor x));
    StringField "doctor" Doctor (fun v x => mk (PatientID x) v) ].
End PatientIDParams.

Module VisitInfoParams.
Record t : Type := mk { PatientID : N; Doctor : string; Complaint : string }.
Definition tags : list (Field t) :=
  [ Uint64Field "patient" PatientID (fun v x => mk v (Doctor x) (Complaint x));
    StringField "doctor" Doctor (fun v x => mk (PatientID x) v (Complaint x));
    StringField "complaint" Complaint (fun v x => mk (PatientID x) (Doctor x) v) ].
End VisitInfoParams.

Module DiagnosisParams.
Record t : Type := mk { VisitID : N; PatientID : N; Diagnosis : string }.
Definition tags : list (Field t) :=
  [ Uint64Field "ID" VisitID (fun v x => mk v (PatientID x) (Diagnosis x));
    Uint64Field "patient" PatientID (fun v x => mk (VisitID x) v (Diagnosis x));
    StringField "diagnosis" Diagnosis (fun v x => mk (VisitID x) (PatientID x) v) ].
End DiagnosisParams.

Module PerscriptionParams.
Record t : Type := mk { VisitID : N; PatientID : N; Perscription : string }.
Definition tags : list (Field t) :=
  [ Uint64Field "ID" VisitID (fun v x => mk v (PatientID x) (Perscription x));
    Uint64Field "patient" PatientID (fun v x => mk (VisitID x) v (Perscription x));
    StringField "perscription" Perscription (fun v x => mk (VisitID x) (PatientID x) v) ].
End PerscriptionParams.

Module DoctorParams.
Record t : Type := mk { Doctor : string }.
Definition tags : list (Field t) :=
  [ StringField "doctor" Doctor (fun v x => mk v) ].
End DoctorParams.

Module SetDoctorAccessParams.
Record t : Type := mk { PatientID : N; Doctor : string; Access : N }.
Definition tags : list (Field t) :=
  [ Uint64Field "patient" PatientID (fun v x => mk v (Doctor x) (Access x));
    StringField "doctor" Doctor (fun v x => mk (PatientID x) v (Access x));
    Uint64Field "access" Access (fun v x => mk (PatientID x) (Doctor x) v) ].
End SetDoctorAccessParams.

Module MedicalRecords.
Record t : Type := mk {
  Patient : PatientInfo.t;
  History : list MedicalVisit.t
}.
End MedicalRecords.

#[global] Instance PatientInfo_struct : GoStruct PatientInfo.t :=
  {| type_name := "PatientInfo";
     zero := PatientInfo.mk 0 "" "" 0 0 "";
     fields := PatientInfo.tags |}.

#[global] Instance MedicalVisit_struct : GoStruct MedicalVisit.t :=
  {| type_name := "MedicalVisit";
     zero := MedicalVisit.mk 0 0 "" "" "" "";
     fields := MedicalVisit.tags |}.

#[global] Instance PatientInfoParams_struct : GoStruct PatientInfoParams.t :=
  {| type_name := "PatientInfoParams";
     zero := PatientInfoParams.mk "" "" 0 0 "";
     fields := PatientInfoParams.tags |}.

#[global] Instance PatientIDParams_struct : GoStruct PatientIDParams.t :=
  {| type_name := "PatientIDParams";
     zero := PatientIDParams.mk 0 "";
     fields := PatientIDParams.tags |}.

#[global] Instance VisitInfoParams_struct : GoStruct VisitInfoParams.t :=
  {| type_name := "VisitInfoParams";
     zero := VisitInfoParams.mk 0 "" "";
     fields := VisitInfoParams.tags |}.

#[global] Instance DiagnosisParams_struct : GoStruct DiagnosisParams.t :=
  {| type_name := "DiagnosisParams";
     zero := DiagnosisParams.mk 0 0 "";
     fields := DiagnosisParams.tags |}.

#[global] Instance PerscriptionParams_struct : GoStruct PerscriptionParams.t :=
  {| type_name := "PerscriptionParams";
     zero := PerscriptionParams.mk 0 0 "";
     fields := PerscriptionParams.tags |}.

#[global] Instance DoctorParams_struct : GoStruct DoctorParams.t :=
  {| type_name := "DoctorParams";
     zero := DoctorParams.mk "";
     fields := DoctorParams.tags |}.

#[global] Instance SetDoctorAccessParams_struct : GoStruct SetDoctorAccessParams.t :=
  {| type_name := "SetDoctorAccessParams";
     zero := SetDoctorAccessParams.mk 0 "" 0;
     fields := SetDoctorAccessParams.tags |}.

(** [json.Marshal] of a [MedicalRecords]: the patient, then the history as an
    array ([[]] when empty, the slice is never [nil]). *)
Definition json_Marshal_records (r : MedicalRecords.t) : string :=
  print_json (JObject
    [ ("patient", struct_to_json (MedicalRecords.Patient r));
      ("history", JArray (map struct_to_json (MedicalRecords.History r))) ]).

(** ** Chaincode: constants and responses *)

Definition MetadataKey : string := "__metadata_".
Definition PatientInfoKey : string := "__patient_record_".
Definition PatientInfoCountKey : string := "__patient_count_".
Definition MedVisitKey : string := "__visit_record_".
Definition VisitInfoCountKey : string := "__visit_count_".
Definition DoctorPublicKey : string := "__access_public_key_".
Definition DoctorAccessKey : string := "__access_doctor_".

(** [peer.Response] as built by [shim.Success] and [shim.Error]. *)
Inductive Response : Type :=
| Success (payload : option string)
| Error (message : string).

(** [type AccessType int] with its three named levels; the level travels as
    a [uint64] in the parameters and on the ledger. *)
Definition AccessType : Type := N.
Definition None_ : AccessType := 0.
Definition Info : AccessType := 1.
Definition Full : AccessType := 2.

(** ** Chaincode: private functions *)

Definition setPatient (stub : Stub) (patient : PatientInfo.t) : Stub * error :=
  let key := fst (CreateCompositeKey PatientInfoKey
                    [string_of_uint64 (PatientInfo.PatientID patient)]) in
  let result := json_Marshal patient in
  PutState stub key result.

Definition getPatient (stub : Stub) (id : N) : PatientInfo.t * error :=
  let result : PatientInfo.t := zero in
  let key := fst (CreateCompositeKey PatientInfoKey [string_of_uint64 id]) in
  let '(data, err) := GetState stub key in
  match err with
  | Some e => (result, Some e)
  | None => json_Unmarshal (default "" data) result
  end.

Definition setVisit (stub : Stub) (visit : MedicalVisit.t) : Stub * error :=
  let key := fst (CreateCompositeKey MedVisitKey
                    [string_of_uint64 (MedicalVisit.PatientID visit);
                     string_of_uint64 (MedicalVisit.VisitID visit)]) in
  let result := json_Marshal visit in
  PutState stub key result.

Definition getVisit (stub : Stub) (patientId id : N) : MedicalVisit.t * error :=
  let result : MedicalVisit.t := zero in
  let key := fst (CreateCompositeKey MedVisitKey
                    [string_of_uint64 patientId; string_of_uint64 id]) in
  let '(data, err) := GetState stub key in
  match err with
  | Some e => (result, Some e)
  | None => json_Unmarshal (default "" data) result
  end.

Definition setValue (stub : Stub) (key : Key) (value : N) : Stub * error :=
  let data := PutUint64 value in
  PutState stub key data.

Definition getValue (stub : Stub) (key : Key) : Go (N * error) :=
  let '(data, err) := GetState stub key in
  match err with
  | Some e => Return (0, Some e)
  | None =>
      match data with
      | None => Return (0, None)
      | Some data => v ← Uint64 data; Return (v, None)
      end
  end.

(** ** Chaincode utils *)

Definition getOwnerKey : Key * error := CreateCompositeKey MetadataKey ["Owner"].

Definition getOwnerCN (stub : Stub) : string * error :=
  let key := fst getOwnerKey in
  let '(data, err) := GetState stub key in
  (default "" data, err).

(** [parsePEM]: the certificate's subject common name, or the error of the
    PEM or of the X.509 decoder. *)
Definition parsePEM (id : Identity) : option string * error :=
  match id with
  | BadEnvelope | BadPEM _ => (None, Some "Failed to parse PEM certificate")
  | BadCertificate _ reason => (None, Some reason)
  | Certificate _ cn => (Some cn, None)
  end.

Definition cnFromX509 (id : Identity) : string * error :=
  let '(cert, err) := parsePEM id in
  match err, cert with
  | Some e, _ => ("", Some ("Failed to parse certificate: " +:+ e))
  | None, Some cn => (cn, None)
  | None, None => ("", None)
  end.

Definition callerCN (stub : Stub) : string * error :=
  match Creator stub with
  | BadEnvelope => ("", Some "Could not unmarshal Creator")
  | id =>
      let '(cn, err) := cnFromX509 id in
      match err with
      | Some e => ("", Some e)
      | None => (cn, None)
      end
  end.

(** [getCallParams]. Every handler hands over its parameter struct as a
    value ([params := X{}] and then [getCallParams(stub, args, params)]), and
    the function passes it on to [json.Unmarshal] as it is: the handler's
    struct is never filled, and the decoder's error makes every call with
    one argument end at [Error parsing transfer json]. *)
Definition getCallParams {P} `{GoStruct P} (stub : Stub) (args : list string) (params : P)
  : string * string * error :=
  match args with
  | [arg] =>
      let err := json_Unmarshal_by_value arg params in
      match err with
      | Some _ => ("", "", Some "Error parsing transfer json")
      | None =>
          let '(caller, err) := callerCN stub in
          match err with
          | Some _ => ("", "", Some "Error getting caller data")
          | None =>
              let '(owner, err) := getOwnerCN stub in
              match err with
              | Some _ => ("", "", Some "Error getting owner data")
              | None => (caller, owner, None)
              end
          end
      end
  | _ => ("", "", Some "Transfer expected 1 argument")
  end.

(** ** Access control ([chaincode/access.go])

    The receiver of these methods holds a reference to the chaincode object
    for its counter helpers and no state of its own; the methods take the
    stub. [data != caller] compares the two byte sequences. *)

Module AccessControl.

(** [registerDoctor] adds the doctor key to the database. *)
Definition registerDoctor (stub : Stub) (doctor : string) (doctorKey : string)
  : bool * error * Stub :=
  let key := fst (CreateCompositeKey DoctorPublicKey [doctor]) in
  let '(data, err) := GetState stub key in
  match err with
  | Some e => (false, Some e, stub)
  | None =>
      match data with
      | Some _ => (false, Some "Already registered", stub)
      | None =>
          let '(stub, _) := PutState stub key doctorKey in
          (true, None, stub)
      end
  end.

(** [setAccess] sets the doctor's access level and returns [true] if the
    access was changed. *)
Definition setAccess (stub : Stub) (patientId : N) (doctor : string) (accType : AccessType)
  : Go (bool * error * Stub) :=
  let accesskey := fst (CreateCompositeKey DoctorAccessKey [doctor; Sprint patientId]) in
  '(current, err) ← getValue stub accesskey;
  if bool_decide (err <> None) || (current =? accType) then
    Return (false, err, stub)
  else
    let '(stub, _) := setValue stub accesskey accType in
    Return (true, None, stub).

(** [checkAccess] returns the doctor's access level. *)
Definition checkAccess (stub : Stub) (patientId : N) (doctor : string) (caller : string)
  : Go (AccessType * error) :=
  let key := fst (CreateCompositeKey DoctorPublicKey [doctor]) in
  let '(data, err) := GetState stub key in
  match err with
  | Some e => Return (0, Some e)
  | None =>
      match data with
      | None => Return (0, Some "Doctor not registered")
      | Some data =>
          if bool_decide (data <> caller) then
            Return (0, Some "Invalid caller certificate")
          else
            let accesskey :=
              fst (CreateCompositeKey MetadataKey ["doctor"; Sprint patientId]) in
            '(current, err) ← getValue stub accesskey;
            match err with
            | Some e => Return (0, Some e)
            | None => Return (current, None)
            end
      end
  end.

End AccessControl.

(** ** Chaincode: transactions

    A handler returns its response and the stub with the writes it made. Its
    [params] is the zero-valued struct it declares: [getCallParams] gets a
    copy. *)

(** [Init] runs initialization for the chaincode. *)
Definition Init (stub : Stub) : Response * Stub :=
  let '(caller, err) := callerCN stub in
  match err with
  | Some _ => (Error "Error getting caller cn", stub)
  | None =>
      let '(ownerKey, err) := getOwnerKey in
      match err with
      | Some _ => (Error "Error getting database key", stub)
      | None =>
          let '(stub, err) := PutState stub ownerKey caller in
          match err with
          | Some _ => (Error "Error saving data", stub)
          | None => (Success None, stub)
          end
      end
  end.

Definition registerPatient (stub : Stub) (args : list string) : Go (Response * Stub) :=
  let params : PatientInfoParams.t := zero in
  let '(_, _, err) := getCallParams stub args params in
  match err with
  | Some e => Return (Error e, stub)
  | None =>
      '(count, _) ← getValue stub (SimpleKey PatientInfoCountKey);
      let newPatient :=
        {| PatientInfo.PatientID := uint64_add count 1;
           PatientInfo.FirstName := PatientInfoParams.FirstName params;
           PatientInfo.LastName := PatientInfoParams.LastName params;
           PatientInfo.Gender := PatientInfoParams.Gender params;
           PatientInfo.BirthDate := PatientInfoParams.BirthDate params;
           PatientInfo.Phone := PatientInfoParams.Phone params |} in
      let '(stub, _) := setPatient stub newPatient in
      let '(stub, _) := setValue stub (SimpleKey PatientInfoCountKey) (uint64_add count 1) in
      let result := json_Marshal newPatient in
      Return (Success (Some result), stub)
  end.

(** The error of [getCallParams] is overwritten by the one of [setAccess]. *)
Definition setDocAccess (stub : Stub) (args : list string) : Go (Response * Stub) :=
  let params : SetDoctorAccessParams.t := zero in
  let '(caller, _, err) := getCallParams stub args params in
  '(_, err, stub) ← AccessControl.setAccess stub
      (SetDoctorAccessParams.PatientID params)
      (SetDoctorAccessParams.Doctor params)
      (SetDoctorAccessParams.Access params);
  match err with
  | Some e => Return (Error e, stub)
  | None => Return (Success None, stub)
  end.

(** The error of [getCallParams] is overwritten by the one of
    [AccessControl.registerDoctor]. *)
Definition registerDoctor (stub : Stub) (args : list string) : Go (Response * Stub) :=
  let params : DoctorParams.t := zero in
  let '(caller, _, err) := getCallParams stub args params in
  let '(_, err, stub) :=
    AccessControl.registerDoctor stub (DoctorParams.Doctor params) caller in
  match err with
  | Some e => Return (Error e, stub)
  | None => Return (Success None, stub)
  end.

Definition updatePatient (stub : Stub) (args : list string) : Go (Response * Stub) :=
  let params : PatientInfo.t := zero in
  let '(_, _, err) := getCallParams stub args params in
  match err with
  | Some e => Return (Error e, stub)
  | None =>
      let '(_, err) := getPatient stub (PatientInfo.PatientID params) in
      match err with
      | Some e => Return (Error e, stub)
      | None =>
          let '(stub, _) := setPatient stub params in
          Return (Success None, stub)
      end
  end.

Definition getPatientById (stub : Stub) (args : list string) : Go (Response * Stub) :=
  let params : PatientIDParams.t := zero in
  let '(caller, _, err) := getCallParams stub args params in
  match err with
  | Some e => Return (Error e, stub)
  | None =>
      '(access, _) ← AccessControl.checkAccess stub
          (PatientIDParams.PatientID params) (PatientIDParams.Doctor params) caller;
      if access =? 0 then
        Return (Error "Caller does not have access to patient info.", stub)
      else
        let '(patient, err) := getPatient stub (PatientIDParams.PatientID params) in
        match err with
        | Some e => Return (Error e, stub)
        | None =>
            let result := json_Marshal patient in
            Return (Success (Some result), stub)
        end
  end.

Definition patientVisit (stub : Stub) (args : list string) : Go (Response * Stub) :=
  let params : VisitInfoParams.t := zero in
  let '(_, _, err) := getCallParams stub args params in
  match err with
  | Some e => Return (Error e, stub)
  | None =>
      let countkey := fst (CreateCompositeKey VisitInfoCountKey
                             [string_of_uint64 (VisitInfoParams.PatientID params)]) in
      '(count, _) ← getValue stub countkey;
      let newVisit :=
        {| MedicalVisit.VisitID := uint64_add count 1;
           MedicalVisit.PatientID := VisitInfoParams.PatientID params;
           MedicalVisit.Doctor := VisitInfoParams.Doctor params;
           MedicalVisit.Complaint := VisitInfoParams.Complaint params;
           MedicalVisit.Diagnosis := "";
           MedicalVisit.Perscription := "" |} in
      let '(stub, _) := setVisit stub newVisit in
      let '(stub, _) := setValue stub countkey (uint64_add count 1) in
      let result := json_Marshal newVisit in
      Return (Success (Some result), stub)
  end.

Definition setDiagnosis (stub : Stub) (args : list string) : Go (Response * Stub) :=
  let params : DiagnosisParams.t := zero in
  let '(caller, _, err) := getCallParams stub args params in
  match err with
  | Some e => Return (Error e, stub)
  | None =>
      let '(visit, _) := getVisit stub (DiagnosisParams.PatientID params)
                           (DiagnosisParams.VisitID params) in
      '(access, _) ← AccessControl.checkAccess stub
          (DiagnosisParams.PatientID params) (MedicalVisit.Doctor visit) caller;
      if negb (access =? 2) then
        Return (Error "Caller does not have access to patient data.", stub)
      else
        let visit :=
          {| MedicalVisit.VisitID := MedicalVisit.VisitID visit;
             MedicalVisit.PatientID := MedicalVisit.PatientID visit;
             MedicalVisit.Doctor := MedicalVisit.Doctor visit;
             MedicalVisit.Complaint := MedicalVisit.Complaint visit;
             MedicalVisit.Diagnosis := DiagnosisParams.Diagnosis params;
             MedicalVisit.Perscription := MedicalVisit.Perscription visit |} in
        let '(stub, _) := setVisit stub visit in
        let result := json_Marshal visit in
        Return (Success (Some result), stub)
  end.

Definition setPerscription (stub : Stub) (args : list string) : Go (Response * Stub) :=
  let params : PerscriptionParams.t := zero in
  let '(caller, _, err) := getCallParams stub args params in
  match err with
  | Some e => Return (Error e, stub)
  | None =>
      let '(visit, _) := getVisit stub (PerscriptionParams.PatientID params)
                           (PerscriptionParams.VisitID params) in
      '(access, _) ← AccessControl.checkAccess stub
          (PerscriptionParams.PatientID params) (MedicalVisit.Doctor visit) caller;
      if negb (access =? 2) then
        Return (Error "Caller does not have access to patient data.", stub)
      else
        let visit :=
          {| MedicalVisit.VisitID := MedicalVisit.VisitID visit;
             MedicalVisit.PatientID := MedicalVisit.PatientID visit;
             MedicalVisit.Doctor := MedicalVisit.Doctor visit;
             MedicalVisit.Complaint := MedicalVisit.Complaint visit;
             MedicalVisit.Diagnosis := MedicalVisit.Diagnosis visit;
             MedicalVisit.Perscription := PerscriptionParams.Perscription params |} in
        let '(stub, _) := setVisit stub visit in
        let result := json_Marshal visit in
        Return (Success (Some result), stub)
  end.

(** The values [visitID] takes in [for visitID := uint64(0); visitID < count;
    visitID++]. *)
Definition visit_ids (count : N) : list N :=
  map N.of_nat (seq 0 (N.to_nat count)).

Definition getMedicalRecords (stub : Stub) (args : list string) : Go (Response * Stub) :=
  let params : PatientIDParams.t := zero in
  let '(caller, _, err) := getCallParams stub args params in
  match err with
  | Some e => Return (Error e, stub)
  | None =>
      '(access, _) ← AccessControl.checkAccess stub
          (PatientIDParams.PatientID params) (PatientIDParams.Doctor params) caller;
      if negb (access =? 2) then
        Return (Error "Caller does not have access to patient info.", stub)
      else
        let countkey := fst (CreateCompositeKey VisitInfoCountKey
                               [string_of_uint64 (PatientIDParams.PatientID params)]) in
        '(count, _) ← getValue stub countkey;
        let '(patient, err) := getPatient stub (PatientIDParams.PatientID params) in
        match err with
        | Some e => Return (Error e, stub)
        | None =>
            let history :=
              fold_left
                (fun (history : list MedicalVisit.t) (visitID : N) =>
                   let '(visit, _) :=
                     getVisit stub (PatientIDParams.PatientID params) visitID in
                   (history ++ [visit])%list)
                (visit_ids count) [] in
            let records :=
              {| MedicalRecords.Patient := patient;
                 MedicalRecords.History := history |} in
            let result := json_Marshal_records records in
            Return (Success (Some result), stub)
        end
  end.

(** [Invoke] runs the functions of the chaincode. *)
Definition Invoke (stub : Stub) (fn : string) (args : list string) : Go (Response * Stub) :=
  if String.eqb fn "RegisterPatient" then registerPatient stub args
  else if String.eqb fn "UpdatePatientDetails" then updatePatient stub args
  else if String.eqb fn "GetPatient" then getPatientById stub args
  else if String.eqb fn "PatientVisit" then patientVisit stub args
  else if String.eqb fn "SetDiagnosis" then setDiagnosis stub args
  else if String.eqb fn "SetPerscription" then setPerscription stub args
  else if String.eqb fn "GetMedicalRecords" then getMedicalRecords stub args
  else if String.eqb fn "RegisterDoctor" then registerDoctor stub args
  else if String.eqb fn "SetDoctorAccess" then setDocAccess stub args
  else Return (Error "Undefined function", stub).

(** ** The ledger across transactions

    The runtime calls [Invoke] once per transaction, with a stub over the
    world state the previous transactions left; a transaction that panics
    commits nothing. *)

Record Invocation : Type := mkInvocation {
  inv_creator : Identity;
  inv_get_fault : Key -> error;
  inv_put_fault : Key -> error;
  inv_fn : string;
  inv_args : list string
}.

Definition stub_of (state : gmap Key string) (inv : Invocation) : Stub :=
  {| State := state;
     Creator := inv_creator inv;
     GetFault := inv_get_fault inv;
     PutFault := inv_put_fault inv |}.

Definition invoke (state : gmap Key string) (inv : Invocation)
  : option Response * gmap Key string :=
  match Invoke (stub_of state inv) (inv_fn inv) (inv_args inv) with
  | Return (r, stub) => (Some r, State stub)
  | Panic _ => (None, state)
  end.

(** The responses and the final world state of a sequence of transactions. *)
Fixpoint run (state : gmap Key string) (invs : list Invocation)
  : list (option Response) * gmap Key string :=
  match invs with
  | [] => ([], state)
  | inv :: rest =>
      let '(r, state) := invoke state inv in
      let '(rs, state) := run state rest in
      (r :: rs, state)
  end.

Definition no_fault : Key -> error := fun _ => None.

(** A transaction on a ledger that serves every read and write. *)
Definition call (creator : Identity) (fn : string) (arg : string) : Invocation :=
  mkInvocation creator no_fault no_fault fn [arg].

(** ** Keys of the chaincode *)

(** The key of a doctor's binding, as [registerDoctor] and [checkAccess] of
    [access.go] build it. *)
Definition doctor_key (doctor : string) : Key :=
  fst (CreateCompositeKey DoctorPublicKey [doctor]).

(** The key of an access level, as [setAccess] builds it. *)
Definition access_key (doctor : string) (patientId : N) : Key :=
  fst (CreateCompositeKey DoctorAccessKey [doctor; Sprint patientId]).

(** The key under which [checkAccess] reads the level of a patient. *)
Definition checked_level_key (patientId : N) : Key :=
  fst (CreateCompositeKey MetadataKey ["doctor"; Sprint patientId]).

(** The key of a patient record, as [setPatient] and [getPatient] build it. *)
Definition patient_key (patientId : N) : Key :=
  fst (CreateCompositeKey PatientInfoKey [string_of_uint64 patientId]).

(** The key of a visit record, as [setVisit] and [getVisit] build it. *)
Definition visit_key (patientId visitId : N) : Key :=
  fst (CreateCompositeKey MedVisitKey
         [string_of_uint64 patientId; string_of_uint64 visitId]).

(** The key of the patient counter. *)
Definition patient_count_key : Key := SimpleKey PatientInfoCountKey.



(** ** Sample principals and ledgers *)

(** JSON text written with apostrophes in place of double quotes. *)
Fixpoint json_text (s : string) : string :=
  match s with
  | EmptyString => EmptyString
  | String c rest =>
      String (if N_of_ascii c =? 39 then double_quote else c) (json_text rest)
  end.

(** The raw bytes of two certificates. *)
Definition cert_a : string :=
  "-----BEGIN CERTIFICATE-----MIIB(dr.a)-----END CERTIFICATE-----".
Definition cert_b : string :=
  "-----BEGIN CERTIFICATE-----MIIB(dr.b)-----END CERTIFICATE-----".

(** A doctor whose certificate has the common name [dr.a]. *)
Definition dr_a : Identity := Certificate cert_a "dr.a".

(** Another certificate, issued to the common name [dr.b]. *)
Definition dr_b : Identity := Certificate cert_b "dr.b".

(** A stub over the world state [state] that serves every read and write. *)
Definition stub_on (state : gmap Key string) (creator : Identity) : Stub :=
  mkStub state creator no_fault no_fault.

(** The empty ledger. *)
Definition fresh (creator : Identity) : Stub := stub_on ∅ creator.

(** The counter a world state holds under a key, read as [getValue] reads it
    from a ledger that serves the read. *)
Definition counter_at (state : gmap Key string) (key : Key) : Go (N * error) :=
  getValue (stub_on state BadEnvelope) key.

(** Two patients registered one after the other. *)
Definition two_registrations : list Invocation :=
  [ call dr_a "RegisterPatient"
      (json_text "{'firstname':'J','lastname':'Doe','gender':1,'birthdate':19700101,'phone':'x'}");
    call dr_b "RegisterPatient"
      (json_text "{'firstname':'A','lastname':'Roe','gender':2,'birthdate':19800202,'phone':'y'}") ].

(** Two doctors asking for the same name one after the other. *)
Definition two_doctor_registrations : list Invocation :=
  [ call dr_a "RegisterDoctor" (json_text "{'doctor':'dr.a'}");
    call dr_b "RegisterDoctor" (json_text "{'doctor':'dr.a'}") ].

(** The diagnosis scenario of the specification: doctor [dr.a] registers, a
    patient is registered, the doctor gets [Full] access to patient 1 and
    opens a visit, sets its diagnosis and asks for the medical records. *)
Definition diagnosis_scenario : list Invocation :=
  [ call dr_a "RegisterDoctor" (json_text "{'doctor':'dr.a'}");
    call dr_a "RegisterPatient"
      (json_text "{'firstname':'J','lastname':'Doe','gender':1,'birthdate':19700101,'phone':'x'}");
    call dr_a "SetDoctorAccess" (json_text "{'patient':1,'doctor':'dr.a','access':2}");
    call dr_a "PatientVisit" (json_text "{'patient':1,'doctor':'dr.a','complaint':'cough'}");
    call dr_a "SetDiagnosis" (json_text "{'ID':1,'patient':1,'diagnosis':'flu'}");
    call dr_a "GetMedicalRecords" (json_text "{'ID':1,'doctor':'dr.a'}") ].


(** The function names [Invoke] dispatches on. *)
Definition invoke_names : list string :=
  [ "RegisterPatient"; "UpdatePatientDetails"; "GetPatient"; "PatientVisit";
    "SetDiagnosis"; "SetPerscription"; "GetMedicalRecords"; "RegisterDoctor";
    "SetDoctorAccess" ].

(** A ledger on which [hospital-admin] is recorded as owner. *)
Definition owned_ledger : gmap Key string :=
  {[ fst getOwnerKey := "hospital-admin" ]}.

(** ** JSON text of flat objects *)

(** The members of an object as [print_json] writes them between the
    braces. *)
Fixpoint print_members (ms : list (string * JSON)) : string :=
  match ms with
  | [] => EmptyString
  | [(k, x)] => quote k +:+ ":" +:+ print_json x
  | (k, x) :: rest => quote k +:+ ":" +:+ print_json x +:+ "," +:+ print_members rest
  end.

(** Text whose bytes are all below 128. *)
Definition ascii_text (s : string) : Prop :=
  Forall (fun c => N_of_ascii c < 128) (list_ascii_of_string s).

(** ** Responses to a call whose parameters were not decoded *)

(** The response of a handler that returns the error of [getCallParams]. *)
Definition refusal (args : list string) : Response :=
  Error (match args with
         | [_] => "Error parsing transfer json"
         | _ => "Transfer expected 1 argument"
         end).

(** The response of the [RegisterDoctor] handler, which goes on with the
    empty doctor name and the empty caller. *)
Definition registerDoctor_response (stub : Stub) : Response :=
  match GetState stub (doctor_key "") with
  | (_, Some e) => Error e
  | (Some _, None) => Error "Already registered"
  | (None, None) => Success None
  end.


(** A ledger on which the name [dr.a] is bound to the bytes [cert_b], by a
    direct call of [AccessControl.registerDoctor]. *)
Definition bound_to_cert_b : Stub :=
  snd (AccessControl.registerDoctor (fresh dr_a) "dr.a" cert_b).

(** A ledger that refuses every read. *)
Definition unreadable_ledger : Stub :=
  {| State := ∅;
     Creator := dr_a;
     GetFault := fun _ => Some "ledger unavailable";
     PutFault := no_fault |}.

(** The arguments of the calls of the scenarios. *)
Definition get_patient_1 : string := json_text "{'ID':1,'doctor':'dr.a'}".
Definition diagnose_visit_1 : string :=
  json_text "{'ID':1,'patient':1,'diagnosis':'flu'}".
Definition perscribe_visit_1 : string :=
  json_text "{'ID':1,'patient':1,'perscription':'rest'}".



(** * Properties *)

(** ** Bytes and counters *)

Lemma length_put_le (w : nat) (v : N) : String.length (put_le w v) = w.
Proof.
  revert v; induction w as [|w IH]; intros v; simpl; [reflexivity|].
  now rewrite IH.
Qed.

Lemma get_le_put_le (w : nat) (v : N) :
  get_le w (put_le w v) = v mod 256 ^ N.of_nat w.
Proof.
  revert v; induction w as [|w IH]; intros v.
  - simpl. now rewrite N.mod_1_r.
  - cbn [put_le get_le]. rewrite IH, N_ascii_embedding by (apply N.mod_lt; lia).
    rewrite Nat2N.inj_succ, N.pow_succ_r'.
    rewrite (N.Div0.mod_mul_r v 256 (256 ^ N.of_nat w)). reflexivity.
Qed.

Lemma Uint64_PutUint64 (v : N) :
  v < uint64_modulus -> Uint64 (PutUint64 v) = Return v.
Proof.
  intros Hv. unfold Uint64, PutUint64. rewrite length_put_le. simpl Nat.ltb. cbv iota.
  rewrite get_le_put_le. f_equal. apply N.mod_small. exact Hv.
Qed.

(** ** Reads and writes of the stub *)

Lemma GetState_ok (stub : Stub) (key : Key) :
  GetFault stub key = None -> GetState stub key = (State stub !! key, None).
Proof. unfold GetState. now intros ->. Qed.

Lemma PutState_ok (stub : Stub) (key : Key) (c : ascii) (rest : string) :
  PutFault stub key = None ->
  PutState stub key (String c rest) =
    ({| State := <[key := String c rest]> (State stub); Creator := Creator stub;
        GetFault := GetFault stub; PutFault := PutFault stub |}, None).
Proof. unfold PutState. now intros ->. Qed.

Lemma setValue_ok (stub : Stub) (key : Key) (v : N) :
  PutFault stub key = None ->
  setValue stub key v =
    ({| State := <[key := PutUint64 v]> (State stub); Creator := Creator stub;
        GetFault := GetFault stub; PutFault := PutFault stub |}, None).
Proof. intros H. unfold setValue. apply (PutState_ok _ _ _ _ H). Qed.

(** A write changes the world state at its key or nowhere, and nothing else
    of the stub. *)
Lemma PutState_frame (stub : Stub) (key : Key) (value : string) :
  let stub' := fst (PutState stub key value) in
  Creator stub' = Creator stub /\ GetFault stub' = GetFault stub /\
  PutFault stub' = PutFault stub /\
  forall k, k <> key -> State stub' !! k = State stub !! k.
Proof.
  unfold PutState. destruct (PutFault stub key); cbn; repeat split; auto.
  intros k Hk. destruct value.
  - apply lookup_delete_ne. congruence.
  - apply lookup_insert_ne. congruence.
Qed.

Lemma PutState_other (stub : Stub) (key k : Key) (value : string) :
  k <> key -> State (fst (PutState stub key value)) !! k = State stub !! k.
Proof. intros Hne. now apply PutState_frame. Qed.

Lemma getValue_stored (stub : Stub) (key : Key) (v : N) :
  GetFault stub key = None -> v < uint64_modulus ->
  State stub !! key = Some (PutUint64 v) ->
  getValue stub key = Return (v, None).
Proof.
  intros Hf Hv Hs. unfold getValue. rewrite GetState_ok, Hs by assumption.
  rewrite Uint64_PutUint64 by assumption. reflexivity.
Qed.

(** ** Access levels *)

Lemma getValue_no_fault (stub : Stub) (key : Key) (v : N) :
  getValue stub key = Return (v, None) -> GetFault stub key = None.
Proof.
  unfold getValue, GetState. destruct (GetFault stub key); [discriminate|reflexivity].
Qed.

(** C9. When the level stored for (doctor, patient) already equals [L],
    [setAccess] leaves the stub as it is and returns [false]; otherwise it
    writes [L] under the same key and returns [true]. The level is the one
    [getValue] reads, on a ledger that accepts the write. *)
Theorem setAccess_same_level_is_noop
    (stub : Stub) (p : N) (d : string) (L current : AccessType) :
  getValue stub (access_key d p) = Return (current, None) ->
  PutFault stub (access_key d p) = None ->
  (current = L ->
     AccessControl.setAccess stub p d L = Return (false, None, stub)) /\
  (current <> L ->
     exists stub',
       AccessControl.setAccess stub p d L = Return (true, None, stub') /\
       State stub' = <[access_key d p := PutUint64 L]> (State stub) /\
       (L < uint64_modulus -> getValue stub' (access_key d p) = Return (L, None))).
Proof.
  intros Hget Hput. pose proof (getValue_no_fault _ _ _ Hget) as Hgf.
  unfold AccessControl.setAccess. fold (access_key d p). rewrite Hget. cbn.
  split; intros HL.
  - subst. rewrite N.eqb_refl. reflexivity.
  - apply N.eqb_neq in HL. rewrite HL.
    rewrite setValue_ok by assumption. eexists. split; [reflexivity|].
    split; [reflexivity|]. intros HLt.
    apply getValue_stored; [exact Hgf | exact HLt | cbn; apply lookup_insert_eq].
Qed.

Lemma setAccess_same_level_is_noop_witness :
  getValue (fresh dr_a) (access_key "dr.a" 1) = Return (0, None) /\
  PutFault (fresh dr_a) (access_key "dr.a" 1) = None /\
  AccessControl.setAccess (fresh dr_a) 1 "dr.a" None_ = Return (false, None, fresh dr_a) /\
  (exists stub',
     AccessControl.setAccess (fresh dr_a) 1 "dr.a" Full = Return (true, None, stub') /\
     State stub' = <[access_key "dr.a" 1 := PutUint64 Full]> (State (fresh dr_a)) /\
     (Full < uint64_modulus -> getValue stub' (access_key "dr.a" 1) = Return (Full, None))).
Proof.
  assert (Hg : getValue (fresh dr_a) (access_key "dr.a" 1) = Return (0, None))
    by reflexivity.
  assert (Hp : PutFault (fresh dr_a) (access_key "dr.a" 1) = None) by reflexivity.
  split; [exact Hg|]. split; [exact Hp|].
  split.
  - apply (proj1 (setAccess_same_level_is_noop (fresh dr_a) 1 "dr.a" None_ 0 Hg Hp)).
    reflexivity.
  - apply (proj2 (setAccess_same_level_is_noop (fresh dr_a) 1 "dr.a" Full 0 Hg Hp)).
    discriminate.
Defined.

(** ** Composite keys *)

Lemma CreateCompositeKey_cases (objectType : string) (attributes : list string) :
  CreateCompositeKey objectType attributes = (CompositeKey objectType attributes, None) \/
  (fst (CreateCompositeKey objectType attributes) = SimpleKey "" /\
   snd (CreateCompositeKey objectType attributes) <> None).
Proof.
  unfold CreateCompositeKey. destruct (_ && _); [left; reflexivity|].
  right. split; [reflexivity | discriminate].
Qed.

(** Decimal digits are accepted by the key constructor. *)
Lemma Sprint_accepted (id : N) : validateCompositeKeyAttribute (Sprint id) = true.
Proof.
  unfold Sprint, validateCompositeKeyAttribute, bytes_of_string.
  induction (N.to_uint id) as [|d IH|d IH|d IH|d IH|d IH|d IH|d IH|d IH|d IH|d IH];
    [reflexivity | exact IH ..].
Qed.

Lemma access_key_accepted (d : string) (p : N) :
  validateCompositeKeyAttribute d = true ->
  access_key d p = CompositeKey DoctorAccessKey [d; Sprint p].
Proof.
  intros Hd. unfold access_key, CreateCompositeKey. cbn [forallb].
  rewrite Hd, Sprint_accepted. reflexivity.
Qed.

Lemma checked_level_key_eq (p : N) :
  checked_level_key p = CompositeKey MetadataKey ["doctor"; Sprint p].
Proof.
  unfold checked_level_key, CreateCompositeKey. cbn [forallb].
  rewrite Sprint_accepted. reflexivity.
Qed.

(** [setAccess] for a doctor name the key constructor accepts writes under
    the access key of the doctor and the patient only, and [checkAccess]
    never reads there: the result of a check is the same before and after. *)
Lemma checkAccess_ignores_setAccess
    (stub stub' : Stub) (p p' : N) (d d' caller : string) (L : AccessType)
    (changed : bool) (err : error) :
  validateCompositeKeyAttribute d = true ->
  AccessControl.setAccess stub p d L = Return (changed, err, stub') ->
  AccessControl.checkAccess stub' p' d' caller = AccessControl.checkAccess stub p' d' caller.
Proof.
  intros Hd. unfold AccessControl.setAccess. fold (access_key d p).
  destruct (getValue stub _) as [[current e]|msg]; cbn; [|discriminate].
  destruct (_ || _); [now intros [= _ _ <-]|].
  unfold setValue.
  destruct (PutState stub (access_key d p) (PutUint64 L)) as [s1 e1] eqn:Eput.
  intros [= _ _ <-].
  assert (Hs1 : s1 = fst (PutState stub (access_key d p) (PutUint64 L)))
    by now rewrite Eput.
  destruct (PutState_frame stub (access_key d p) (PutUint64 L)) as (_ & Hg & _ & Hother).
  rewrite <- Hs1 in Hg, Hother.
  assert (Hk : forall k, k <> access_key d p -> GetState s1 k = GetState stub k).
  { intros k Hk. unfold GetState. rewrite Hg, Hother by exact Hk. reflexivity. }
  unfold AccessControl.checkAccess, getValue.
  fold (doctor_key d') (checked_level_key p').
  rewrite (Hk (doctor_key d')), (Hk (checked_level_key p')); [reflexivity | |].
  - rewrite checked_level_key_eq, access_key_accepted by exact Hd. discriminate.
  - rewrite access_key_accepted by exact Hd. unfold doctor_key.
    destruct (CreateCompositeKey_cases DoctorPublicKey [d']) as [-> | [-> _]]; discriminate.
Qed.

(** C1, on direct calls of the functions of [access.go] on the empty
    ledger. The doctor name is registered with the bytes of a certificate,
    [setAccess] sets the level of patient 1 to [Full] and reports the change,
    the level is stored under the access key, and [checkAccess] with the
    registered bytes still returns [None_] with no error: it reads the level
    under the metadata object type and the literal attribute [doctor], where
    [setAccess] did not write. A caller with other bytes is refused as
    invalid. *)
Theorem checkAccess_after_setAccess_returns_none :
  let '(registered, err1, stub1) :=
    AccessControl.registerDoctor (fresh dr_a) "dr.a" cert_a in
  registered = true /\ err1 = None /\
  State stub1 !! doctor_key "dr.a" = Some cert_a /\
  match AccessControl.setAccess stub1 1 "dr.a" Full with
  | Return (changed, err2, stub2) =>
      changed = true /\ err2 = None /\
      State stub2 !! access_key "dr.a" 1 = Some (PutUint64 Full) /\
      State stub2 !! checked_level_key 1 = None /\
      AccessControl.checkAccess stub2 1 "dr.a" cert_a = Return (None_, None) /\
      AccessControl.checkAccess stub2 1 "dr.a" cert_b
        = Return (0, Some "Invalid caller certificate")
  | Panic _ => False
  end.
Proof. vm_compute. repeat split; reflexivity. Qed.

(** ** Transactions never get their parameters *)

(** [getCallParams] fails on every call: on the count of the arguments, or
    else on the decoder's refusal of a struct handed over by value. *)
Lemma getCallParams_fails {P} `{GoStruct P} (stub : Stub) (args : list string) (params : P) :
  getCallParams stub args params =
    ("", "", Some (match args with
                   | [_] => "Error parsing transfer json"
                   | _ => "Transfer expected 1 argument"
                   end)).
Proof.
  unfold getCallParams, json_Unmarshal_by_value.
  destruct args as [|arg [|? ?]]; try reflexivity.
  destruct (parse_json arg); reflexivity.
Qed.

Lemma registerPatient_refuses (stub : Stub) (args : list string) :
  registerPatient stub args = Return (refusal args, stub).
Proof. unfold registerPatient. rewrite getCallParams_fails. reflexivity. Qed.

Lemma updatePatient_refuses (stub : Stub) (args : list string) :
  updatePatient stub args = Return (refusal args, stub).
Proof. unfold updatePatient. rewrite getCallParams_fails. reflexivity. Qed.

Lemma getPatientById_refuses (stub : Stub) (args : list string) :
  getPatientById stub args = Return (refusal args, stub).
Proof. unfold getPatientById. rewrite getCallParams_fails. reflexivity. Qed.

Lemma patientVisit_refuses (stub : Stub) (args : list string) :
  patientVisit stub args = Return (refusal args, stub).
Proof. unfold patientVisit. rewrite getCallParams_fails. reflexivity. Qed.

Lemma setDiagnosis_refuses (stub : Stub) (args : list string) :
  setDiagnosis stub args = Return (refusal args, stub).
Proof. unfold setDiagnosis. rewrite getCallParams_fails. reflexivity. Qed.

Lemma setPerscription_refuses (stub : Stub) (args : list string) :
  setPerscription stub args = Return (refusal args, stub).
Proof. unfold setPerscription. rewrite getCallParams_fails. reflexivity. Qed.

Lemma getMedicalRecords_refuses (stub : Stub) (args : list string) :
  getMedicalRecords stub args = Return (refusal args, stub).
Proof. unfold getMedicalRecords. rewrite getCallParams_fails. reflexivity. Qed.

Lemma stub_eta (stub : Stub) :
  {| State := State stub; Creator := Creator stub;
     GetFault := GetFault stub; PutFault := PutFault stub |} = stub.
Proof. destruct stub; reflexivity. Qed.

(** Registering empty bytes leaves the ledger as it was: the write of a
    zero-length value removes a key that was read as absent. *)
Lemma registerDoctor_empty_bytes (stub : Stub) (doctor : string) :
  AccessControl.registerDoctor stub doctor "" =
    (match GetState stub (doctor_key doctor) with
     | (None, None) => true
     | _ => false
     end,
     match GetState stub (doctor_key doctor) with
     | (_, Some e) => Some e
     | (Some _, None) => Some "Already registered"
     | (None, None) => None
     end,
     stub).
Proof.
  unfold AccessControl.registerDoctor. fold (doctor_key doctor).
  unfold GetState.
  destruct (GetFault stub (doctor_key doctor)) as [e|]; [reflexivity|].
  destruct (State stub !! doctor_key doctor) as [data|] eqn:Hdata; [reflexivity|].
  unfold PutState.
  destruct (PutFault stub (doctor_key doctor)); [reflexivity|].
  rewrite delete_id by exact Hdata. rewrite stub_eta. reflexivity.
Qed.

Lemma registerDoctor_handler (stub : Stub) (args : list string) :
  registerDoctor stub args = Return (registerDoctor_response stub, stub).
Proof.
  unfold registerDoctor, registerDoctor_response.
  rewrite getCallParams_fails. cbn [zero DoctorParams_struct DoctorParams.Doctor].
  rewrite registerDoctor_empty_bytes.
  destruct (GetState stub (doctor_key "")) as [[data|] [e|]]; reflexivity.
Qed.

(** The [SetDoctorAccess] handler is [setAccess] on patient 0, the empty
    doctor name and level 0, whatever its arguments. *)
Lemma setDocAccess_handler (stub : Stub) (args : list string) :
  setDocAccess stub args =
    '(_, err, stub) ← AccessControl.setAccess stub 0 "" 0;
    match err with
    | Some e => Return (Error e, stub)
    | None => Return (Success None, stub)
    end.
Proof. unfold setDocAccess. rewrite getCallParams_fails. reflexivity. Qed.

Lemma setDocAccess_inert (stub : Stub) (args : list string) :
  State stub !! access_key "" 0 = None ->
  exists r, setDocAccess stub args = Return (r, stub).
Proof.
  intros Hnone. rewrite setDocAccess_handler.
  unfold AccessControl.setAccess. fold (access_key "" 0).
  unfold getValue, GetState.
  destruct (GetFault stub (access_key "" 0)) as [e|]; [eexists; reflexivity|].
  rewrite Hnone. eexists; reflexivity.
Qed.

(** A transaction leaves the ledger as it found it, on every ledger that
    holds no level for the empty doctor name and patient 0. *)
Lemma Invoke_inert (stub : Stub) (fn : string) (args : list string) :
  State stub !! access_key "" 0 = None ->
  exists r, Invoke stub fn args = Return (r, stub).
Proof.
  intros Hnone. unfold Invoke.
  repeat match goal with
         | |- context [if String.eqb fn ?name then _ else _] =>
             destruct (String.eqb fn name)
         end;
    try (eexists; first
          [ apply registerPatient_refuses | apply updatePatient_refuses
          | apply getPatientById_refuses | apply patientVisit_refuses
          | apply setDiagnosis_refuses | apply setPerscription_refuses
          | apply getMedicalRecords_refuses | apply registerDoctor_handler
          | reflexivity ]).
  apply setDocAccess_inert, Hnone.
Qed.

Lemma invoke_inert (state : gmap Key string) (inv : Invocation) :
  state !! access_key "" 0 = None ->
  exists r, invoke state inv = (Some r, state).
Proof.
  intros Hnone. unfold invoke.
  destruct (Invoke_inert (stub_of state inv) (inv_fn inv) (inv_args inv) Hnone)
    as [r ->].
  exists r. reflexivity.
Qed.

Lemma run_inert (state : gmap Key string) (invs : list Invocation) :
  state !! access_key "" 0 = None ->
  snd (run state invs) = state /\
  Forall (fun r => r <> None) (fst (run state invs)).
Proof.
  intros Hnone. induction invs as [|inv rest [IHs IHr]]; cbn [run].
  - split; [reflexivity | constructor].
  - destruct (invoke_inert state inv Hnone) as [r ->].
    destruct (run state rest) as [rs state']. cbn in *.
    split; [exact IHs | constructor; [discriminate | exact IHr]].
Qed.

(** ** The transactions of the specification's scenarios *)

(** C2. The [RegisterDoctor] handler leaves every ledger as it found it: its
    parameters are never decoded and its caller never resolved, so it calls
    [AccessControl.registerDoctor] with the empty name and zero bytes, and a
    write of zero bytes stores nothing. On the empty ledger the transaction
    of the certificate [cert_a] for the name [dr.a] answers success, the
    ledger is still empty, no bytes are bound to [dr.a] or to the empty
    name, and a check for [dr.a] fails as not registered with the
    certificate's bytes and with its common name alike. *)
Theorem registerDoctor_transaction_binds_nothing :
  (forall stub args, exists r, registerDoctor stub args = Return (r, stub)) /\
  getCallParams (fresh dr_a) [json_text "{'doctor':'dr.a'}"] (zero : DoctorParams.t)
    = ("", "", Some "Error parsing transfer json") /\
  let '(responses, state) :=
    run ∅ [call dr_a "RegisterDoctor" (json_text "{'doctor':'dr.a'}")] in
  responses = [Some (Success None)] /\
  state = ∅ /\
  state !! doctor_key "dr.a" = None /\
  state !! doctor_key "" = None /\
  AccessControl.checkAccess (stub_on state dr_a) 1 "dr.a" cert_a
    = Return (0, Some "Doctor not registered") /\
  AccessControl.checkAccess (stub_on state dr_a) 1 "dr.a" "dr.a"
    = Return (0, Some "Doctor not registered").
Proof.
  split; [intros stub args; eexists; apply registerDoctor_handler|].
  split; [apply getCallParams_fails|].
  vm_compute. repeat split; reflexivity.
Qed.

(** C3. The scenario of the specification on the empty ledger, every
    transaction sent by the doctor [dr.a]: the registration of the doctor
    and the grant answer success and store nothing, and the registration of
    the patient, the visit, the diagnosis and the request for the medical
    records are each answered with [Error parsing transfer json]; the ledger
    is empty at the end. [GetMedicalRecords] answers every call with one
    argument that way. *)
Theorem getMedicalRecords_scenario_fails :
  fst (run ∅ diagnosis_scenario) =
    [ Some (Success None);
      Some (Error "Error parsing transfer json");
      Some (Success None);
      Some (Error "Error parsing transfer json");
      Some (Error "Error parsing transfer json");
      Some (Error "Error parsing transfer json") ] /\
  snd (run ∅ diagnosis_scenario) = ∅ /\
  (forall stub arg,
     getMedicalRecords stub [arg] = Return (Error "Error parsing transfer json", stub)) /\
  (forall stub arg,
     setDiagnosis stub [arg] = Return (Error "Error parsing transfer json", stub)) /\
  (forall stub arg,
     patientVisit stub [arg] = Return (Error "Error parsing transfer json", stub)).
Proof.
  split; [vm_compute; reflexivity|].
  split; [vm_compute; reflexivity|].
  split; [|split]; intros stub arg.
  - apply getMedicalRecords_refuses.
  - apply setDiagnosis_refuses.
  - apply patientVisit_refuses.
Qed.

(** C5. No [RegisterPatient] call succeeds: on every ledger and for every
    argument list the handler answers with an error and leaves the ledger
    as it found it. After the two registrations of the sample, sent to the
    empty ledger, both answers are [Error parsing transfer json], the ledger
    is empty, the patient counter reads 0 and no record is stored for
    patient 1. *)
Theorem registerPatient_never_succeeds :
  (forall stub args, exists message,
     registerPatient stub args = Return (Error message, stub)) /\
  fst (run ∅ two_registrations) =
    [ Some (Error "Error parsing transfer json");
      Some (Error "Error parsing transfer json") ] /\
  snd (run ∅ two_registrations) = ∅ /\
  counter_at (snd (run ∅ two_registrations)) patient_count_key = Return (0, None) /\
  snd (run ∅ two_registrations) !! patient_key 1 = None.
Proof.
  split.
  { intros stub args. rewrite registerPatient_refuses. eexists; reflexivity. }
  vm_compute. repeat split; reflexivity.
Qed.

(** C6. [SetDiagnosis] and [SetPerscription] answer every call with one
    argument with [Error parsing transfer json] and leave the ledger as they
    found it: the visit is never looked up. So it is for the calls that name
    visit 1 of patient 1 on the empty ledger, where no visit is stored. *)
Theorem setDiagnosis_of_missing_visit :
  (forall stub arg,
     setDiagnosis stub [arg] = Return (Error "Error parsing transfer json", stub)) /\
  (forall stub arg,
     setPerscription stub [arg] = Return (Error "Error parsing transfer json", stub)) /\
  State (fresh dr_a) !! visit_key 1 1 = None /\
  run ∅ [call dr_a "SetDiagnosis" diagnose_visit_1;
         call dr_a "SetPerscription" perscribe_visit_1]
    = ([ Some (Error "Error parsing transfer json");
         Some (Error "Error parsing transfer json") ], ∅).
Proof.
  split; [intros; apply setDiagnosis_refuses|].
  split; [intros; apply setPerscription_refuses|].
  vm_compute. repeat split; reflexivity.
Qed.


(** C8. Two [RegisterDoctor] transactions for the name [dr.a], by two
    certificates, sent to the empty ledger: both answer success and the
    ledger is empty afterwards, no bytes are bound to the name. On direct
    calls, [AccessControl.registerDoctor] with zero bytes reports a
    registration on the empty ledger and on the ledger it leaves, for the
    name [dr.a] as for the empty name the handler passes. *)
Theorem registerDoctor_twice_succeeds :
  run ∅ two_doctor_registrations = ([Some (Success None); Some (Success None)], ∅) /\
  AccessControl.registerDoctor (fresh dr_a) "dr.a" "" = (true, None, fresh dr_a) /\
  AccessControl.registerDoctor (fresh dr_b) "dr.a" "" = (true, None, fresh dr_b) /\
  AccessControl.registerDoctor (fresh dr_a) "" "" = (true, None, fresh dr_a).
Proof. vm_compute. repeat split; reflexivity. Qed.

(** C10. [GetPatient] answers every call with one argument with
    [Error parsing transfer json], before the access check is run: the
    check's three failures, which [checkAccess] tells apart on direct calls,
    never reach the caller, and neither does the access message. *)
Theorem getPatientById_answers_before_the_access_check :
  (forall stub arg,
     getPatientById stub [arg] = Return (Error "Error parsing transfer json", stub)) /\
  AccessControl.checkAccess (fresh dr_a) 1 "dr.a" cert_a
    = Return (0, Some "Doctor not registered") /\
  AccessControl.checkAccess bound_to_cert_b 1 "dr.a" cert_a
    = Return (0, Some "Invalid caller certificate") /\
  AccessControl.checkAccess unreadable_ledger 1 "dr.a" cert_a
    = Return (0, Some "ledger unavailable") /\
  getPatientById (fresh dr_a) [get_patient_1]
    = Return (Error "Error parsing transfer json", fresh dr_a) /\
  getPatientById bound_to_cert_b [get_patient_1]
    = Return (Error "Error parsing transfer json", bound_to_cert_b) /\
  getPatientById unreadable_ledger [get_patient_1]
    = Return (Error "Error parsing transfer json", unreadable_ledger).
Proof.
  split; [intros; apply getPatientById_refuses|].
  split; [vm_compute; reflexivity|].
  split; [vm_compute; reflexivity|].
  split; [vm_compute; reflexivity|].
  repeat split; apply getPatientById_refuses.
Qed.

(** ** Key segments of identifiers *)
















(** *** Decimal digits against little-endian bytes *)














